(** * Lowering LMHLO to the TFRT GPU dialects: the pass configuration

    A shallow embedding of
    [tensorflow/compiler/mlir/tfrt/transforms/lmhlo_to_gpu/lmhlo_to_gpu.cc].

    The file configures a dialect conversion: it creates one type converter,
    lets nine rule providers and the streamify provider fill one pattern set,
    builds the wrap target and the conversion target, and runs one partial
    conversion over the module.  The operation graph, the conversion target,
    the type converter and the conversion driver are library classes that the
    file only uses; they are modelled here from their description in the
    specification, each under a comment that says so. *)

From Stdlib Require Import Ascii String.
From stdpp Require Import base option list strings gmap.

Set Warnings "-register-all,-clear-no-such-hyp".
Open Scope string_scope.
Open Scope list_scope.

(** ** The operation graph *)

(** Types are identified by their textual form, e.g. ["memref<4xf32>"]. *)
Abbreviation MType := string.

(** The type of a function: [getInputs] and [getResults]. *)
Record FunctionType := mkFunctionType {
  getInputs : list MType;
  getResults : list MType
}.

(** A block: its arguments (by type) and its operations, in order. *)
Record Block_ (Op : Type) := mkBlock {
  getArgumentTypes : list MType;
  getOperations : list Op
}.
Arguments mkBlock {Op} _ _.
Arguments getArgumentTypes {Op} _.
Arguments getOperations {Op} _.

(** A region: an ordered list of blocks owned by one operation. *)
Record Region_ (Op : Type) := mkRegion {
  getBlocks : list (Block_ Op)
}.
Arguments mkRegion {Op} _.
Arguments getBlocks {Op} _.

(** An operation: its name (["dialect.mnemonic"]), the types of its operands
    and results, its [function_type] attribute (empty on an operation that
    carries none) and its nested regions. *)
Inductive Operation := mkOperation {
  getName : string;
  getOperandTypes : list MType;
  getResultTypes : list MType;
  getFunctionType : FunctionType;
  getRegions : list (Region_ Operation)
}.

Abbreviation Block := (Block_ Operation).
Abbreviation Region := (Region_ Operation).

(** [Operation*]: an operation together with the operation that owns the
    block it sits in ([None] for the root, whose parent pointer is null). *)
Record OpRef := mkOpRef {
  getParentOp : option Operation;
  deref : Operation
}.

Definition nameOf (o : OpRef) : string := getName (deref o).

(** [op.getBody()] of a function and [op.body()] of a streamify operation:
    the first region. *)
Definition getBody (op : Operation) : Region :=
  default (mkRegion []) (getRegions op !! 0%nat).

(** The namespace of an operation name: the text before the first dot. *)
Fixpoint getDialectNamespace (name : string) : string :=
  match name with
  | EmptyString => EmptyString
  | String c rest =>
      if Ascii.eqb c "."%char then EmptyString
      else String c (getDialectNamespace rest)
  end.

(** Pre-order walk: the operation itself, then the operations of its
    regions, each with its parent. *)
Fixpoint walk (parent : option Operation) (op : Operation) : list OpRef :=
  mkOpRef parent op ::
  flat_map (fun r =>
    flat_map (fun b => flat_map (walk (Some op)) (getOperations b))
             (getBlocks r))
    (getRegions op).

Definition allOps (root : Operation) : list OpRef := walk None root.

(** ** Operation and dialect names used by the pass *)

Module memref.
Definition ReinterpretCastOp := "memref.reinterpret_cast".
Definition ViewOp := "memref.view".
Definition AllocaOp := "memref.alloca".
Definition AllocOp := "memref.alloc".
Definition DeallocOp := "memref.dealloc".
Definition LoadOp := "memref.load".
End memref.

Module func.
Definition FuncOp := "func.func".
Definition CallOp := "func.call".
Definition ReturnOp := "func.return".
End func.

Module tfrt.
Module compiler.
Definition TFRTDialect := "tfrt".
Definition CallOp := "tfrt.call".
Definition ReturnOp := "tfrt.return".
Definition WhileOp := "tfrt.while".
End compiler.
Module gpu.
Definition GpuDialect := "tfrt_gpu".
Definition StreamifyOp := "tfrt_gpu.streamify".
End gpu.
End tfrt.

Module lmhlo.
Definition AllGatherOp := "lmhlo.all_gather".
Definition AllReduceOp := "lmhlo.all_reduce".
Definition ReduceScatterOp := "lmhlo.reduce_scatter".
Definition AllToAllOp := "lmhlo.all_to_all".
Definition CollectivePermuteOp := "lmhlo.collective_permute".
Definition CustomCallOp := "lmhlo.custom_call".
Definition TriangularSolveOp := "lmhlo.triangular_solve".
Definition ReplicaIdOp := "lmhlo.replica_id".
Definition PartitionIdOp := "lmhlo.partition_id".
Definition InfeedOp := "lmhlo.infeed".
Definition OutfeedOp := "lmhlo.outfeed".
Definition FftOp := "lmhlo.fft".
End lmhlo.

Module lmhlo_gpu.
Definition LmhloGpuDialect := "lmhlo_gpu".
End lmhlo_gpu.

Module mlir_gpu.
Definition GPUDialect := "gpu".
End mlir_gpu.

Module xla_gpu.
Definition XlirDialect := "xlir".
End xla_gpu.

(** [isa<tfrt::gpu::StreamifyOp>(op->getParentOp())].  LLVM's [isa] asserts
    on a null pointer; an operation nested in a module always has a parent,
    and the statements that depend on the parent name it. *)
Definition isa_StreamifyOp (parent : option Operation) : bool :=
  match parent with
  | Some p => bool_decide (getName p = tfrt.gpu.StreamifyOp)
  | None => false
  end.

(** ** The type converter *)

(** Modelled from the spec: the [TypeConverter] class and
    [tfrt::gpu::CreateMemrefToTfrtGpuConverter] are not part of the file.
    Section 4.1: [convert(sourceType)] gives the target type or fails with
    [UnsupportedType]; it is a pure function of its input type. *)
Record TypeConverter := mkTypeConverter {
  convertType : MType -> option MType
}.

Module TypeConverter.
(** A type is legal when it is already in converted form. *)
Definition isLegalType (c : TypeConverter) (t : MType) : bool :=
  bool_decide (convertType c t = Some t).

Definition isLegalTypes (c : TypeConverter) (ts : list MType) : bool :=
  forallb (isLegalType c) ts.

(** [isSignatureLegal]: the whole boundary signature, inputs and results,
    is converted. *)
Definition isSignatureLegal (c : TypeConverter) (ty : FunctionType) : bool :=
  isLegalTypes c (getInputs ty ++ getResults ty).

(** [isLegal] on a region: the arguments of every block are converted. *)
Definition isLegalRegion (c : TypeConverter) (r : Region) : bool :=
  forallb (fun b => isLegalTypes c (getArgumentTypes b)) (getBlocks r).

(** [isLegal] on an operation: operand and result types are converted. *)
Definition isLegalOp (c : TypeConverter) (op : Operation) : bool :=
  isLegalTypes c (getOperandTypes op) && isLegalTypes c (getResultTypes op).
End TypeConverter.

(** ** The conversion target (legality oracle) *)

(** Modelled from the spec: the [ConversionTarget] class is not part of the
    file.  Sections 4.3 and 9: every operation kind is mapped to a
    classification [AlwaysLegal | AlwaysIllegal | Predicate]; a kind with no
    explicit classification falls to its dialect's, and then to the default
    rule; explicit classification takes precedence over the default rule. *)
Inductive Classification :=
  | AlwaysLegal
  | AlwaysIllegal
  | Predicate (legalityFn : OpRef -> bool).

Record ConversionTarget := mkConversionTarget {
  legalOperations : gmap string Classification;
  legalDialects : gmap string Classification;
  unknownLegalityFn : option (OpRef -> bool)
}.

Module ConversionTarget.
Definition empty : ConversionTarget := mkConversionTarget ∅ ∅ None.

Definition setOpAction (name : string) (c : Classification)
    (t : ConversionTarget) : ConversionTarget :=
  mkConversionTarget (<[name := c]> (legalOperations t))
                     (legalDialects t) (unknownLegalityFn t).

Definition addLegalOp (names : list string) (t : ConversionTarget)
    : ConversionTarget :=
  foldl (fun t n => setOpAction n AlwaysLegal t) t names.

Definition addIllegalOp (names : list string) (t : ConversionTarget)
    : ConversionTarget :=
  foldl (fun t n => setOpAction n AlwaysIllegal t) t names.

Definition addDynamicallyLegalOp (names : list string)
    (callback : OpRef -> bool) (t : ConversionTarget) : ConversionTarget :=
  foldl (fun t n => setOpAction n (Predicate callback) t) t names.

Definition addLegalDialect (dialect : string) (t : ConversionTarget)
    : ConversionTarget :=
  mkConversionTarget (legalOperations t)
                     (<[dialect := AlwaysLegal]> (legalDialects t))
                     (unknownLegalityFn t).

Definition markUnknownOpDynamicallyLegal (callback : OpRef -> bool)
    (t : ConversionTarget) : ConversionTarget :=
  mkConversionTarget (legalOperations t) (legalDialects t) (Some callback).

(** The classification that applies to an operation name. *)
Definition getOpInfo (t : ConversionTarget) (name : string)
    : option Classification :=
  match legalOperations t !! name with
  | Some c => Some c
  | None =>
      match legalDialects t !! getDialectNamespace name with
      | Some c => Some c
      | None => Predicate <$> unknownLegalityFn t
      end
  end.

Definition isLegal (t : ConversionTarget) (op : OpRef) : bool :=
  match getOpInfo t (nameOf op) with
  | Some AlwaysLegal => true
  | Some (Predicate f) => f op
  | Some AlwaysIllegal | None => false
  end.

Definition isIllegal (t : ConversionTarget) (op : OpRef) : bool :=
  match getOpInfo t (nameOf op) with
  | Some AlwaysIllegal => true
  | Some (Predicate f) => negb (f op)
  | Some AlwaysLegal | None => false
  end.
End ConversionTarget.

(** ** The pattern registry *)

(** Modelled from the spec: the [RewritePatternSet] class and the bodies of
    the rules are not part of the file.  Section 4.2: an entry has a match
    predicate over an operation, a rewrite function that produces zero or
    more replacement operations, and a declared benefit; a rewrite that
    cannot be carried out fails locally.  A conversion pattern keeps the type
    converter it was registered with. *)
Record RewritePattern := mkRewritePattern {
  benefit : nat;
  getTypeConverter : TypeConverter;
  matches : OpRef -> bool;
  rewrite : OpRef -> option (list Operation)
}.

Abbreviation RewritePatternSet := (list RewritePattern).

(** What a rule provider contributes: a rule that still waits for the type
    converter handed to the provider. *)
Record Rule := mkRule {
  ruleBenefit : nat;
  ruleMatches : OpRef -> bool;
  ruleRewrite : TypeConverter -> OpRef -> option (list Operation)
}.

Definition bindRule (converter : TypeConverter) (r : Rule) : RewritePattern :=
  mkRewritePattern (ruleBenefit r) converter (ruleMatches r)
                   (ruleRewrite r converter).

(** Modelled from the spec: the provider interface
    [register(PatternRegistry&, TypeConverter&)] of section 6; a provider
    appends the patterns of its operation family to the shared registry. *)
Definition populate (rules : list Rule) (patterns : RewritePatternSet)
    (converter : TypeConverter) : RewritePatternSet :=
  patterns ++ map (bindRule converter) rules.

(** ** The conversion driver *)

(** Modelled from the spec: [applyPartialConversion] is not part of the
    file.  Section 4.5: while some operation fails the oracle, select an
    illegal operation, find the highest-priority matching pattern (highest
    benefit, then first registered), apply its rewrite; stop in [Legal] when
    the oracle accepts every operation and in [Stuck] when an illegal
    operation has no applicable pattern. *)
Inductive Step (A : Type) :=
  | NoIllegal
  | NoPattern (o : OpRef)
  | Rewritten (a : A).
Arguments NoIllegal {A}.
Arguments NoPattern {A} _.
Arguments Rewritten {A} _.

Definition mapStep {A B} (f : A -> B) (s : Step A) : Step B :=
  match s with
  | NoIllegal => NoIllegal
  | NoPattern o => NoPattern o
  | Rewritten a => Rewritten (f a)
  end.

Section StepSeq.
Context {A : Type} (f : A -> Step (list A)).

(** Rewrite the first element of a sequence that has something to
    rewrite; its replacement takes its place, the rest is untouched. *)
Fixpoint stepSeq (l : list A) : Step (list A) :=
  match l with
  | [] => NoIllegal
  | a :: rest =>
      match f a with
      | NoIllegal => mapStep (cons a) (stepSeq rest)
      | NoPattern o => NoPattern o
      | Rewritten repl => Rewritten (repl ++ rest)
      end
  end.
End StepSeq.

Definition stepEach {A} (f : A -> Step A) : list A -> Step (list A) :=
  stepSeq (fun a => mapStep (fun a' => [a']) (f a)).

Definition setRegions (op : Operation) (rs : list Region) : Operation :=
  mkOperation (getName op) (getOperandTypes op) (getResultTypes op)
              (getFunctionType op) rs.

Definition setOperations (b : Block) (ops : list Operation) : Block :=
  mkBlock (getArgumentTypes b) ops.

Inductive LogicalResult := success | failure.

Definition failed (r : LogicalResult) : bool :=
  match r with failure => true | success => false end.

Inductive DriverState :=
  | Legal (graph : Operation)
  | Stuck (graph : Operation) (blocker : OpRef).

Definition graphOf (d : DriverState) : Operation :=
  match d with
  | Legal graph => graph
  | Stuck graph _ => graph
  end.

Section Driver.
Variable target : ConversionTarget.
Variable patterns : RewritePatternSet.

(** Registration order is kept among patterns of equal benefit. *)
Fixpoint insertByBenefit (p : RewritePattern) (l : RewritePatternSet)
    : RewritePatternSet :=
  match l with
  | [] => [p]
  | q :: rest =>
      if (benefit q <=? benefit p)%nat then p :: q :: rest
      else q :: insertByBenefit p rest
  end.

Definition byPriority : RewritePatternSet := foldr insertByBenefit [] patterns.

(** A pattern that does not match, or whose rewrite fails, is skipped. *)
Fixpoint tryPatterns (ps : RewritePatternSet) (o : OpRef)
    : option (list Operation) :=
  match ps with
  | [] => None
  | p :: rest =>
      if matches p o then
        match rewrite p o with
        | Some repl => Some repl
        | None => tryPatterns rest o
        end
      else tryPatterns rest o
  end.

Definition legalize (o : OpRef) : option (list Operation) :=
  tryPatterns byPriority o.

(** One step at an operation: the first operation, in pre-order, that
    fails the oracle is rewritten in place. *)
Fixpoint stepOp (parent : option Operation) (op : Operation)
    : Step (list Operation) :=
  if ConversionTarget.isLegal target (mkOpRef parent op) then
    mapStep (fun rs => [setRegions op rs])
      (stepEach (fun r =>
         mapStep mkRegion
           (stepEach (fun b =>
              mapStep (setOperations b)
                (stepSeq (stepOp (Some op)) (getOperations b)))
              (getBlocks r)))
         (getRegions op))
  else
    match legalize (mkOpRef parent op) with
    | Some repl => Rewritten repl
    | None => NoPattern (mkOpRef parent op)
    end.

(** The root has no enclosing block: it can only be replaced by exactly
    one operation. *)
Definition stepRoot (root : Operation) : Step Operation :=
  match stepOp None root with
  | NoIllegal => NoIllegal
  | NoPattern o => NoPattern o
  | Rewritten [root'] => Rewritten root'
  | Rewritten _ => NoPattern (mkOpRef None root)
  end.

(** The state machine.  How a run whose rewrites never end is cut short is
    not described; the model runs for at most [fuel] rewrites and gives
    [None] when they are not exhausted by then. *)
Fixpoint drive (fuel : nat) (graph : Operation) : option DriverState :=
  match stepRoot graph with
  | NoIllegal => Some (Legal graph)
  | NoPattern o => Some (Stuck graph o)
  | Rewritten graph' =>
      match fuel with
      | O => None
      | S fuel' => drive fuel' graph'
      end
  end.

(** On failure the transformation is discarded as a unit: the caller keeps
    the graph it passed in. *)
Definition applyPartialConversion (fuel : nat) (root : Operation)
    : option (LogicalResult * Operation) :=
  match drive fuel root with
  | Some (Legal graph) => Some (success, graph)
  | Some (Stuck _ _) => Some (failure, root)
  | None => None
  end.
End Driver.

(** ** The region wrapper *)

(** Modelled from the spec: the region-wrapping pattern that
    [tfrt::gpu::populateStreamifyConversionPatterns] registers is not part
    of the file.  Section 4.4: the operations of a block that need the
    asynchronous context are grouped into maximal contiguous runs, and each
    run is replaced by one wrapping operation whose body holds the run; the
    other operations, and the relative order of all of them, are kept. *)
Inductive Grouped :=
  | Kept (op : Operation)
  | Wrapped (run : list Operation).

Fixpoint groupRuns (needsContext : Operation -> bool) (ops : list Operation)
    : list Grouped :=
  match ops with
  | [] => []
  | op :: rest =>
      if needsContext op then
        match groupRuns needsContext rest with
        | Wrapped run :: items => Wrapped (op :: run) :: items
        | items => Wrapped [op] :: items
        end
      else Kept op :: groupRuns needsContext rest
  end.

Definition groupedOps (item : Grouped) : list Operation :=
  match item with
  | Kept op => [op]
  | Wrapped run => run
  end.

(** The wrapping operation provides the chain and the stream as block
    arguments (comment on lines 89-92). *)
Definition streamifyAround (run : list Operation) : Operation :=
  mkOperation tfrt.gpu.StreamifyOp [] [] (mkFunctionType [] [])
    [mkRegion [mkBlock ["!tfrt.chain"; "!tfrt_gpu.stream"] run]].

Definition materialize (item : Grouped) : Operation :=
  match item with
  | Kept op => op
  | Wrapped run => streamifyAround run
  end.

(** ** The pass *)

Abbreviation DialectRegistry := (gset string).

Definition registryInsert (registry : DialectRegistry) (dialect : string)
    : DialectRegistry :=
  {[dialect]} ∪ registry.

(** [ConvertLmhloToGpuPass::getDependentDialects] *)
Definition getDependentDialects (registry : DialectRegistry)
    : DialectRegistry :=
  foldl registryInsert registry
    [mlir_gpu.GPUDialect; tfrt.compiler.TFRTDialect; tfrt.gpu.GpuDialect;
     xla_gpu.XlirDialect].

(** The pass object as the pass manager sees it: the module it runs on and
    whether it signalled failure. *)
Record PassState := mkPassState {
  getOperation : Operation;
  passFailed : bool
}.

Definition signalPassFailure (st : PassState) : PassState :=
  mkPassState (getOperation st) true.

(** What the pass hands to the conversion driver. *)
Record ConversionRequest := mkConversionRequest {
  requestRoot : Operation;
  requestTarget : ConversionTarget;
  requestPatterns : RewritePatternSet
}.

(** ** The rule providers *)

(** The rules of the nine providers declared at the top of the file, and
    what [tfrt::gpu::populateStreamifyConversionPatterns], which is not part
    of the file, contributes: the region-wrapping rules it registers (they
    consult the wrap target) and the TFRT operations it adds to the wrap
    target. *)
Record Providers := mkProviders {
  cclRules : list Rule;
  choleskyRules : list Rule;
  convolutionRules : list Rule;
  customCallRules : list Rule;
  fftRules : list Rule;
  gemmRules : list Rule;
  infeedAndOutfeedRules : list Rule;
  replicaAndPartitionRules : list Rule;
  triangularSolveRules : list Rule;
  streamifyRules : ConversionTarget -> list Rule;
  streamifyOps : list string
}.

(** ** Sample data: a converter, two rules and three modules *)

Module Sample.
(** Buffers become runtime buffer handles; every other type is kept. *)
Definition memrefToBuffer : TypeConverter :=
  mkTypeConverter (fun t =>
    if String.prefix "memref" t then Some "!tfrt_gpu.buffer" else Some t).

Definition convertOrKeep (c : TypeConverter) (t : MType) : MType :=
  default t (convertType c t).

Definition noFunctionType : FunctionType := mkFunctionType [] [].

Definition leafOp (name : string) (operands results : list MType)
    : Operation :=
  mkOperation name operands results noFunctionType [].

(** The longest prefix whose elements satisfy [p], and the rest. *)
Fixpoint leadingRun {A} (p : A -> bool) (l : list A) : list A * list A :=
  match l with
  | [] => ([], [])
  | a :: rest =>
      if p a then let '(run, tail) := leadingRun p rest in (a :: run, tail)
      else ([], l)
  end.

(** A wrapping rule on functions: the signature is converted and the
    leading run of operations claimed by the wrap target moves, in order,
    into the body of one streamify operation. *)
Definition wrapRule (wrap_target : ConversionTarget) : Rule :=
  mkRule 1
    (fun o => bool_decide (nameOf o = func.FuncOp))
    (fun c o =>
       let f := deref o in
       match getBlocks (getBody f) with
       | [b] =>
           let '(run, tail) :=
             leadingRun (fun x =>
               ConversionTarget.isLegal wrap_target (mkOpRef (Some f) x))
               (getOperations b) in
           let wrapper :=
             mkOperation tfrt.gpu.StreamifyOp [] [] noFunctionType
               [mkRegion [mkBlock ["!tfrt.chain"; "!tfrt_gpu.stream"] run]] in
           let ty := getFunctionType f in
           Some [mkOperation func.FuncOp [] []
                   (mkFunctionType (map (convertOrKeep c) (getInputs ty))
                                   (map (convertOrKeep c) (getResults ty)))
                   [mkRegion
                      [mkBlock (map (convertOrKeep c) (getArgumentTypes b))
                               (wrapper :: tail)]]]
       | _ => None
       end).

(** A lowering rule: a wrapped [lmhlo.fft] becomes one runtime call. *)
Definition fftRule : Rule :=
  mkRule 1
    (fun o => bool_decide (nameOf o = lmhlo.FftOp) &&
              isa_StreamifyOp (getParentOp o))
    (fun c o =>
       Some [leafOp "tfrt_gpu.fft.execute"
               (map (convertOrKeep c) (getOperandTypes (deref o))) []]).

Definition moduleOf (functions : list Operation) : Operation :=
  mkOperation "builtin.module" [] [] noFunctionType
    [mkRegion [mkBlock [] functions]].

Definition functionOf (args : list MType) (body : list Operation)
    : Operation :=
  mkOperation func.FuncOp [] [] (mkFunctionType args [])
    [mkRegion [mkBlock args body]].

Definition fft : Operation :=
  leafOp lmhlo.FftOp ["memref<8xf32>"; "memref<8xf32>"] [].

(** [module { func @main(%in, %out) { lmhlo.fft; return } }] *)
Definition fftModule : Operation :=
  moduleOf [functionOf ["memref<8xf32>"; "memref<8xf32>"]
              [fft; leafOp func.ReturnOp [] []]].

(** The same module once wrapped and lowered. *)
Definition loweredFftModule : Operation :=
  moduleOf
    [functionOf ["!tfrt_gpu.buffer"; "!tfrt_gpu.buffer"]
       [mkOperation tfrt.gpu.StreamifyOp [] [] noFunctionType
          [mkRegion
             [mkBlock ["!tfrt.chain"; "!tfrt_gpu.stream"]
                [leafOp "tfrt_gpu.fft.execute"
                   ["!tfrt_gpu.buffer"; "!tfrt_gpu.buffer"] []]]];
        leafOp func.ReturnOp [] []]].

(** [module { func @main() { memref.alloc; return } }]: no rule rewrites
    the allocation. *)
Definition alloc : Operation :=
  leafOp memref.AllocOp [] ["memref<8xf32>"].

Definition allocFunction : Operation :=
  functionOf [] [alloc; leafOp func.ReturnOp [] []].

Definition allocModule : Operation := moduleOf [allocFunction].

(** A load, and a streamify operation around given operations. *)
Definition loadOp : Operation :=
  leafOp memref.LoadOp ["memref<8xf32>"] ["f32"].

Definition streamifyOf (body : list Operation) : Operation :=
  mkOperation tfrt.gpu.StreamifyOp [] [] noFunctionType
    [mkRegion [mkBlock ["!tfrt.chain"; "!tfrt_gpu.stream"] body]].

Definition launch : Operation := leafOp "gpu.launch_func" [] [].

(** One lowering rule for [lmhlo.fft], the wrapping rule, and
    [tfrt.call] as the TFRT operation added to the wrap target. *)
Definition providers : Providers :=
  {| cclRules := []; choleskyRules := []; convolutionRules := [];
     customCallRules := []; fftRules := [fftRule]; gemmRules := [];
     infeedAndOutfeedRules := []; replicaAndPartitionRules := [];
     triangularSolveRules := [];
     streamifyRules := fun wrap_target => [wrapRule wrap_target];
     streamifyOps := [tfrt.compiler.CallOp] |}.
End Sample.

(** TFRT operations: those of the [tfrt] and [tfrt_gpu] dialects. *)
Definition isTfrtOp (name : string) : bool :=
  bool_decide (getDialectNamespace name ∈
               [tfrt.compiler.TFRTDialect; tfrt.gpu.GpuDialect]).

Section Pass.
(** [tfrt::gpu::CreateMemrefToTfrtGpuConverter()] *)
Variable CreateMemrefToTfrtGpuConverter : TypeConverter.

(** The rule providers the pass links against. *)
Variable providers : Providers.

Definition populateCclConversionPattern := populate (cclRules providers).
Definition populateCholeskyConversionPattern :=
  populate (choleskyRules providers).
Definition populateConvolutionConversionPattern :=
  populate (convolutionRules providers).
Definition populateCustomCallConversionPattern :=
  populate (customCallRules providers).
Definition populateFftConversionPattern := populate (fftRules providers).
Definition populateGemmConversionPattern := populate (gemmRules providers).
Definition populateInfeedAndOutfeedConversionPattern :=
  populate (infeedAndOutfeedRules providers).
Definition populateReplicaAndPartitionConversionPattern :=
  populate (replicaAndPartitionRules providers).
Definition populateTriangularSolveConversionPattern :=
  populate (triangularSolveRules providers).

Definition populateStreamifyConversionPatterns
    (patterns : RewritePatternSet) (converter : TypeConverter)
    (wrap_target : ConversionTarget)
    : RewritePatternSet * ConversionTarget :=
  let wrap_target :=
    ConversionTarget.addLegalOp (streamifyOps providers) wrap_target in
  (populate (streamifyRules providers wrap_target) patterns converter,
   wrap_target).

Definition converter : TypeConverter := CreateMemrefToTfrtGpuConverter.

(** Lines 78-87: the pattern set after the nine providers. *)
Definition loweringPatterns : RewritePatternSet :=
  let patterns := [] in
  let patterns := populateCclConversionPattern patterns converter in
  let patterns := populateCholeskyConversionPattern patterns converter in
  let patterns := populateConvolutionConversionPattern patterns converter in
  let patterns := populateCustomCallConversionPattern patterns converter in
  let patterns := populateGemmConversionPattern patterns converter in
  let patterns :=
    populateInfeedAndOutfeedConversionPattern patterns converter in
  let patterns :=
    populateReplicaAndPartitionConversionPattern patterns converter in
  let patterns :=
    populateTriangularSolveConversionPattern patterns converter in
  let patterns := populateFftConversionPattern patterns converter in
  patterns.

(** The twelve operations of lines 97-101. *)
Definition wrappedLmhloOps : list string :=
  [lmhlo.AllGatherOp; lmhlo.AllReduceOp; lmhlo.ReduceScatterOp;
   lmhlo.AllToAllOp; lmhlo.CollectivePermuteOp; lmhlo.CustomCallOp;
   lmhlo.TriangularSolveOp; lmhlo.ReplicaIdOp; lmhlo.PartitionIdOp;
   lmhlo.InfeedOp; lmhlo.OutfeedOp; lmhlo.FftOp].

(** Lines 95-101: the wrap target as the file builds it. *)
Definition declaredWrapTarget : ConversionTarget :=
  let wrap_target := ConversionTarget.empty in
  let wrap_target :=
    ConversionTarget.addLegalDialect lmhlo_gpu.LmhloGpuDialect wrap_target in
  let wrap_target :=
    ConversionTarget.addLegalOp wrappedLmhloOps wrap_target in
  wrap_target.

(** Lines 102-103. *)
Definition streamified : RewritePatternSet * ConversionTarget :=
  populateStreamifyConversionPatterns loweringPatterns converter
                                      declaredWrapTarget.

Definition patterns : RewritePatternSet := fst streamified.
Definition wrap_target : ConversionTarget := snd streamified.

(** Lines 105-123: the conversion target. *)
Definition target : ConversionTarget :=
  let target := ConversionTarget.empty in
  let target :=
    ConversionTarget.addIllegalOp
      [memref.ReinterpretCastOp; memref.ViewOp; memref.AllocaOp;
       memref.AllocOp; memref.DeallocOp] target in
  let target :=
    ConversionTarget.addDynamicallyLegalOp [func.FuncOp]
      (fun op =>
         TypeConverter.isSignatureLegal converter
           (getFunctionType (deref op)) &&
         TypeConverter.isLegalRegion converter (getBody (deref op)))
      target in
  let target :=
    ConversionTarget.addDynamicallyLegalOp [tfrt.gpu.StreamifyOp]
      (fun op => TypeConverter.isLegalRegion converter (getBody (deref op)))
      target in
  let target :=
    ConversionTarget.addDynamicallyLegalOp
      [tfrt.compiler.CallOp; tfrt.compiler.ReturnOp; tfrt.compiler.WhileOp;
       func.CallOp; func.ReturnOp]
      (fun op => TypeConverter.isLegalOp converter (deref op)) target in
  let target :=
    ConversionTarget.addDynamicallyLegalOp [memref.LoadOp]
      (fun op => isa_StreamifyOp (getParentOp op)) target in
  let target :=
    ConversionTarget.markUnknownOpDynamicallyLegal
      (fun op => negb (ConversionTarget.isLegal wrap_target op)) target in
  target.

(** Lines 125-126: the arguments of the one call to the driver. *)
Definition conversionRequest (st : PassState) : ConversionRequest :=
  mkConversionRequest (getOperation st) target patterns.

(** [ConvertLmhloToGpuPass::runOnOperation] *)
Definition runOnOperation (fuel : nat) (st : PassState) : option PassState :=
  let request := conversionRequest st in
  match applyPartialConversion (requestTarget request)
          (requestPatterns request) fuel (requestRoot request) with
  | Some (result, module) =>
      if failed result then Some (signalPassFailure st)
      else Some (mkPassState module (passFailed st))
  | None => None
  end.

(** The operation kinds that the conversion target classifies by name. *)
Definition explicitlyClassified : list string :=
  [memref.ReinterpretCastOp; memref.ViewOp; memref.AllocaOp; memref.AllocOp;
   memref.DeallocOp; func.FuncOp; tfrt.gpu.StreamifyOp;
   tfrt.compiler.CallOp; tfrt.compiler.ReturnOp; tfrt.compiler.WhileOp;
   func.CallOp; func.ReturnOp; memref.LoadOp].

(** A graph is region-wrapped when every operation claimed by the wrap
    target sits directly in the body of a streamify operation. *)
Definition needsWrap (o : OpRef) : bool :=
  ConversionTarget.isLegal wrap_target o &&
  negb (isa_StreamifyOp (getParentOp o)).

Definition regionWrapped (root : Operation) : bool :=
  forallb (fun o => negb (needsWrap o)) (allOps root).

(** Region wrapping as a pre-pass: the graph is region-wrapped by the time
    it is handed to the driver. *)
Definition wrappedBeforeDriver (st : PassState) : Prop :=
  regionWrapped (requestRoot (conversionRequest st)) = true.

(** The region wrapper on the operations of a block owned by [parent]: an
    operation needs the context when the wrap target claims it. *)
Definition regionWrapper (parent : option Operation) (ops : list Operation)
    : list Grouped :=
  groupRuns (fun op => ConversionTarget.isLegal wrap_target (mkOpRef parent op))
            ops.

Definition wrapBlock (parent : option Operation) (ops : list Operation)
    : list Operation :=
  map materialize (regionWrapper parent ops).

(** ** Facts about the operation graph and the driver *)

(** Induction over operations that reaches the operations nested in the
    blocks of the regions. *)
Lemma Operation_nested_ind (P : Operation -> Prop) :
  (∀ op,
     Forall (fun r => Forall (fun b => Forall P (getOperations b))
                             (getBlocks r))
            (getRegions op) →
     P op) →
  ∀ op, P op.
Proof.
  intros step. fix IH 1. intros [name operands results ty regions].
  apply step; simpl.
  induction regions as [|[blocks] regions IHregions]; constructor;
    [|exact IHregions].
  simpl. induction blocks as [|[args ops] blocks IHblocks]; constructor;
    [|exact IHblocks].
  simpl. induction ops as [|o ops IHops]; constructor;
    [apply IH | exact IHops].
Qed.

Lemma walk_unfold parent op :
  walk parent op =
  mkOpRef parent op ::
  flat_map (fun r =>
    flat_map (fun b => flat_map (walk (Some op)) (getOperations b))
             (getBlocks r))
    (getRegions op).
Proof. by destruct op. Qed.

Lemma stepOp_unfold t ps parent op :
  stepOp t ps parent op =
  if ConversionTarget.isLegal t (mkOpRef parent op) then
    mapStep (fun rs => [setRegions op rs])
      (stepEach (fun r =>
         mapStep mkRegion
           (stepEach (fun b =>
              mapStep (setOperations b)
                (stepSeq (stepOp t ps (Some op)) (getOperations b)))
              (getBlocks r)))
         (getRegions op))
  else
    match legalize ps (mkOpRef parent op) with
    | Some repl => Rewritten repl
    | None => NoPattern (mkOpRef parent op)
    end.
Proof. by destruct op. Qed.

Lemma mapStep_NoIllegal {A B} (f : A -> B) (s : Step A) :
  mapStep f s = NoIllegal → s = NoIllegal.
Proof. by destruct s. Qed.

Lemma stepSeq_NoIllegal {A} (f : A -> Step (list A)) (l : list A) :
  stepSeq f l = NoIllegal → Forall (fun a => f a = NoIllegal) l.
Proof.
  induction l as [|a l IH]; simpl; [constructor|].
  destruct (f a) eqn:Hfa; try discriminate.
  intros H%mapStep_NoIllegal. constructor; auto.
Qed.

Lemma stepEach_NoIllegal {A} (f : A -> Step A) (l : list A) :
  stepEach f l = NoIllegal → Forall (fun a => f a = NoIllegal) l.
Proof.
  intros H%stepSeq_NoIllegal. eapply Forall_impl; [exact H|].
  intros a Ha. by apply mapStep_NoIllegal in Ha.
Qed.

(** When a step finds nothing to rewrite, the oracle accepts every
    operation of the walk. *)
Lemma stepOp_NoIllegal t ps op :
  ∀ parent,
    stepOp t ps parent op = NoIllegal →
    Forall (fun o => ConversionTarget.isLegal t o = true) (walk parent op).
Proof.
  induction op as [op IH] using Operation_nested_ind. intros parent.
  rewrite stepOp_unfold, walk_unfold.
  destruct (ConversionTarget.isLegal t (mkOpRef parent op)) eqn:Hlegal;
    [|destruct (legalize ps _); discriminate].
  intros Hregions%mapStep_NoIllegal%stepEach_NoIllegal.
  constructor; [exact Hlegal|].
  apply Forall_flat_map.
  eapply Forall_impl; [exact (List.Forall_and IH Hregions)|].
  intros r [IHr Hr]; simpl in *.
  apply mapStep_NoIllegal, stepEach_NoIllegal in Hr.
  apply Forall_flat_map.
  eapply Forall_impl; [exact (List.Forall_and IHr Hr)|].
  intros b [IHb Hb]; simpl in *.
  apply mapStep_NoIllegal, stepSeq_NoIllegal in Hb.
  apply Forall_flat_map.
  eapply Forall_impl; [exact (List.Forall_and IHb Hb)|].
  intros o [IHo Ho]; simpl in *. by apply IHo.
Qed.

Lemma stepRoot_NoIllegal t ps root :
  stepRoot t ps root = NoIllegal → stepOp t ps None root = NoIllegal.
Proof.
  unfold stepRoot. destruct (stepOp t ps None root) as [| |[|? [|]]];
    by try discriminate.
Qed.

(** The driver stops in [Legal] only on a graph the oracle accepts
    throughout. *)
Lemma drive_Legal t ps fuel :
  ∀ graph graph',
    drive t ps fuel graph = Some (Legal graph') →
    Forall (fun o => ConversionTarget.isLegal t o = true) (allOps graph').
Proof.
  induction fuel as [|fuel IH]; intros graph graph'; simpl;
    destruct (stepRoot t ps graph) eqn:Hstep; try discriminate.
  - intros [= <-]. by apply stepOp_NoIllegal with ps, stepRoot_NoIllegal.
  - intros [= <-]. by apply stepOp_NoIllegal with ps, stepRoot_NoIllegal.
  - apply IH.
Qed.

(** A run that stops where some operation still fails the oracle stops in
    [Stuck]. *)
Lemma drive_illegal_Stuck t ps fuel graph d o :
  drive t ps fuel graph = Some d →
  o ∈ allOps (graphOf d) →
  ConversionTarget.isLegal t o = false →
  ∃ blocker, d = Stuck (graphOf d) blocker.
Proof.
  intros Hrun Hin Hillegal. destruct d as [graph'|graph' blocker];
    [|by eexists].
  apply drive_Legal in Hrun. rewrite Forall_forall in Hrun.
  simpl in Hin. apply Hrun in Hin. congruence.
Qed.

(** More fuel does not change the state in which the driver stops. *)
Lemma drive_more_fuel t ps fuel extra :
  ∀ graph d,
    drive t ps fuel graph = Some d →
    drive t ps (fuel + extra) graph = Some d.
Proof.
  induction fuel as [|fuel IH]; intros graph d; simpl.
  - destruct (stepRoot t ps graph) eqn:Hstep; try discriminate;
      intros [= <-]; destruct extra; simpl; by rewrite Hstep.
  - destruct (stepRoot t ps graph) eqn:Hstep; [done|done|]. apply IH.
Qed.

Lemma mapStep_NoPattern {A B} (f : A -> B) (s : Step A) o :
  mapStep f s = NoPattern o → s = NoPattern o.
Proof. destruct s; simpl; congruence. Qed.

Lemma stepSeq_NoPattern {A} (f : A -> Step (list A)) (l : list A) o :
  stepSeq f l = NoPattern o → Exists (fun a => f a = NoPattern o) l.
Proof.
  induction l as [|a l IH]; simpl; [discriminate|].
  destruct (f a) eqn:Hfa; try discriminate.
  - intros H%mapStep_NoPattern. right. auto.
  - intros [= ->]. by left.
Qed.

Lemma stepEach_NoPattern {A} (f : A -> Step A) (l : list A) o :
  stepEach f l = NoPattern o → Exists (fun a => f a = NoPattern o) l.
Proof.
  intros H%stepSeq_NoPattern. eapply Exists_impl; [exact H|].
  intros a Ha. by apply mapStep_NoPattern in Ha.
Qed.

Lemma elem_of_flat_map {A B} (f : A -> list B) (l : list A) (a : A) (b : B) :
  a ∈ l → b ∈ f a → b ∈ flat_map f l.
Proof.
  rewrite !list_elem_of_In, in_flat_map. intros Ha Hb. by exists a.
Qed.

(** The blocker the driver reports is an operation of the graph that fails
    the oracle and that no pattern rewrites. *)
Lemma stepOp_NoPattern t ps op :
  ∀ parent o,
    stepOp t ps parent op = NoPattern o →
    o ∈ walk parent op ∧
    ConversionTarget.isLegal t o = false ∧
    legalize ps o = None.
Proof.
  induction op as [op IH] using Operation_nested_ind. intros parent o.
  rewrite stepOp_unfold, walk_unfold.
  destruct (ConversionTarget.isLegal t (mkOpRef parent op)) eqn:Hlegal.
  - intros Hregions%mapStep_NoPattern%stepEach_NoPattern.
    apply Exists_exists in Hregions as (r & Hr & Hblocks).
    apply mapStep_NoPattern, stepEach_NoPattern in Hblocks.
    apply Exists_exists in Hblocks as (b & Hb & Hops).
    apply mapStep_NoPattern, stepSeq_NoPattern in Hops.
    apply Exists_exists in Hops as (op' & Hop' & Hstep).
    rewrite Forall_forall in IH. specialize (IH r Hr).
    rewrite Forall_forall in IH. specialize (IH b Hb).
    rewrite Forall_forall in IH.
    destruct (IH op' Hop' _ _ Hstep) as (Hin & Hillegal & Hnone).
    split; [|done]. right.
    eapply elem_of_flat_map; [exact Hr|].
    eapply elem_of_flat_map; [exact Hb|].
    eapply elem_of_flat_map; [exact Hop'|exact Hin].
  - destruct (legalize ps (mkOpRef parent op)) eqn:Hnone; [discriminate|].
    intros [= <-]. split; [by left|done].
Qed.

Lemma drive_Stuck t ps fuel :
  ∀ graph graph' blocker,
    drive t ps fuel graph = Some (Stuck graph' blocker) →
    blocker ∈ allOps graph' ∧ ConversionTarget.isLegal t blocker = false.
Proof.
  assert (Hstep : ∀ graph blocker,
            stepRoot t ps graph = NoPattern blocker →
            blocker ∈ allOps graph ∧
            ConversionTarget.isLegal t blocker = false).
  { intros graph blocker. unfold stepRoot.
    destruct (stepOp t ps None graph) as [|o|repl] eqn:Hop; [done| |].
    - intros [= <-]. apply stepOp_NoPattern in Hop. tauto.
    - intros Hroot.
      assert (blocker = mkOpRef None graph) as ->
        by (by destruct repl as [|? [|]]; simplify_eq).
      unfold allOps. rewrite walk_unfold. split; [by left|].
      rewrite stepOp_unfold in Hop.
      destruct (ConversionTarget.isLegal t (mkOpRef None graph)); [|done].
      destruct (stepEach _ _); simpl in Hop; simplify_eq. }
  induction fuel as [|fuel IH]; intros graph graph' blocker; simpl;
    destruct (stepRoot t ps graph) eqn:Hroot; try discriminate;
    try (intros [= <- <-]; by apply Hstep).
  apply IH.
Qed.

(** ** Facts about the two conversion targets *)

Lemma legalOperations_setAll c names t n :
  legalOperations
    (foldl (fun t n => ConversionTarget.setOpAction n c t) t names) !! n =
  if bool_decide (n ∈ names) then Some c else legalOperations t !! n.
Proof.
  revert t. induction names as [|m names IH]; intros t; simpl.
  - done.
  - rewrite IH. simpl. destruct (decide (n = m)) as [->|Hne].
    + rewrite lookup_insert_eq, (bool_decide_eq_true_2 (m ∈ m :: names));
        [by case_bool_decide|by left].
    + rewrite lookup_insert_ne by done.
      rewrite (bool_decide_ext (n ∈ m :: names) (n ∈ names)); [done|].
      rewrite elem_of_cons. split; [by intros [?|?]|by right].
Qed.

Lemma legalDialects_setAll c names t :
  legalDialects
    (foldl (fun t n => ConversionTarget.setOpAction n c t) t names) =
  legalDialects t.
Proof.
  revert t. induction names as [|m names IH]; intros t; simpl; [done|].
  by rewrite IH.
Qed.

Lemma unknownLegalityFn_setAll c names t :
  unknownLegalityFn
    (foldl (fun t n => ConversionTarget.setOpAction n c t) t names) =
  unknownLegalityFn t.
Proof.
  revert t. induction names as [|m names IH]; intros t; simpl; [done|].
  by rewrite IH.
Qed.

Lemma target_getOpInfo n :
  ConversionTarget.getOpInfo target n =
  match legalOperations target !! n with
  | Some c => Some c
  | None =>
      Some (Predicate
              (fun op => negb (ConversionTarget.isLegal wrap_target op)))
  end.
Proof.
  unfold ConversionTarget.getOpInfo. destruct (legalOperations target !! n);
    [done|].
  unfold target, ConversionTarget.markUnknownOpDynamicallyLegal,
    ConversionTarget.addDynamicallyLegalOp, ConversionTarget.addIllegalOp.
  cbn [legalDialects unknownLegalityFn].
  by rewrite !legalDialects_setAll.
Qed.

(** The classification of each operation kind that the target names. *)
Lemma target_legalOperations n :
  legalOperations target !! n =
  if bool_decide (n ∈ [memref.LoadOp]) then
    Some (Predicate (fun op => isa_StreamifyOp (getParentOp op)))
  else if bool_decide (n ∈ [tfrt.compiler.CallOp; tfrt.compiler.ReturnOp;
                            tfrt.compiler.WhileOp; func.CallOp;
                            func.ReturnOp]) then
    Some (Predicate (fun op => TypeConverter.isLegalOp converter (deref op)))
  else if bool_decide (n ∈ [tfrt.gpu.StreamifyOp]) then
    Some (Predicate (fun op =>
            TypeConverter.isLegalRegion converter (getBody (deref op))))
  else if bool_decide (n ∈ [func.FuncOp]) then
    Some (Predicate (fun op =>
            TypeConverter.isSignatureLegal converter
              (getFunctionType (deref op)) &&
            TypeConverter.isLegalRegion converter (getBody (deref op))))
  else if bool_decide (n ∈ [memref.ReinterpretCastOp; memref.ViewOp;
                            memref.AllocaOp; memref.AllocOp;
                            memref.DeallocOp]) then
    Some AlwaysIllegal
  else None.
Proof.
  unfold target, ConversionTarget.markUnknownOpDynamicallyLegal,
    ConversionTarget.addDynamicallyLegalOp, ConversionTarget.addIllegalOp.
  cbn [legalOperations]. by rewrite !legalOperations_setAll.
Qed.

Lemma target_unclassified n :
  n ∉ explicitlyClassified → legalOperations target !! n = None.
Proof.
  intros Hn. rewrite target_legalOperations.
  unfold explicitlyClassified in Hn. rewrite !elem_of_cons in Hn.
  rewrite !bool_decide_eq_false_2; [done|..];
    rewrite !elem_of_cons; intros Hin; apply Hn; tauto.
Qed.

Lemma target_classified n :
  n ∈ explicitlyClassified → is_Some (legalOperations target !! n).
Proof.
  intros Hn. rewrite target_legalOperations.
  unfold explicitlyClassified in Hn.
  do 5 (case_bool_decide; [by eexists|]).
  exfalso. set_unfold. tauto.
Qed.

(** The target decides every operation: none is left unknown, so an
    operation is illegal exactly when it is not legal. *)
Lemma target_isIllegal o :
  ConversionTarget.isIllegal target o =
  negb (ConversionTarget.isLegal target o).
Proof.
  unfold ConversionTarget.isIllegal, ConversionTarget.isLegal.
  rewrite target_getOpInfo.
  by destruct (legalOperations target !! nameOf o) as [[]|].
Qed.

Lemma wrap_target_unfold :
  wrap_target =
  ConversionTarget.addLegalOp (streamifyOps providers) declaredWrapTarget.
Proof. reflexivity. Qed.

Lemma patterns_unfold :
  patterns =
  loweringPatterns ++
  map (bindRule converter) (streamifyRules providers wrap_target).
Proof. reflexivity. Qed.

(** What the wrap target claims, as one boolean test on the name. *)
Lemma wrap_target_isLegal o :
  ConversionTarget.isLegal wrap_target o =
  bool_decide (nameOf o ∈ streamifyOps providers) ||
  bool_decide (nameOf o ∈ wrappedLmhloOps) ||
  bool_decide (getDialectNamespace (nameOf o) = lmhlo_gpu.LmhloGpuDialect).
Proof.
  unfold ConversionTarget.isLegal, ConversionTarget.getOpInfo.
  rewrite wrap_target_unfold.
  unfold declaredWrapTarget, ConversionTarget.addLegalOp,
    ConversionTarget.addLegalDialect.
  rewrite !legalOperations_setAll, !legalDialects_setAll,
    !unknownLegalityFn_setAll.
  cbn [legalOperations legalDialects unknownLegalityFn
       ConversionTarget.empty].
  do 2 (case_bool_decide; [done|]). rewrite lookup_empty. simpl.
  case_bool_decide as Hns.
  - by rewrite Hns, lookup_insert_eq.
  - rewrite lookup_insert_ne, lookup_empty; done.
Qed.

Lemma namespace_wrappedLmhloOps n :
  n ∈ wrappedLmhloOps → getDialectNamespace n = "lmhlo".
Proof.
  unfold wrappedLmhloOps. rewrite !elem_of_cons, elem_of_nil.
  intros H. repeat (destruct H as [->|H]; [reflexivity|]). done.
Qed.

Lemma namespace_explicitlyClassified n :
  n ∈ explicitlyClassified →
  getDialectNamespace n ∈ ["memref"; "func"; "tfrt"; "tfrt_gpu"].
Proof.
  unfold explicitlyClassified. rewrite !elem_of_cons, elem_of_nil.
  intros H.
  repeat (destruct H as [->|H];
          [vm_compute getDialectNamespace; set_solver|]).
  done.
Qed.

(** The region wrapper deletes and reorders nothing. *)
Lemma groupRuns_flatten needsContext ops :
  concat (map groupedOps (groupRuns needsContext ops)) = ops.
Proof.
  induction ops as [|op rest IH]; simpl; [done|].
  destruct (needsContext op); simpl; [|by rewrite IH].
  destruct (groupRuns needsContext rest) as [|[kept|run] items];
    simpl in *; by rewrite IH.
Qed.


(** An operation the wrapper keeps in place does not need the context. *)
Lemma groupRuns_Kept needsContext ops op :
  Kept op ∈ groupRuns needsContext ops → needsContext op = false.
Proof.
  induction ops as [|op' rest IH]; simpl.
  - by intros ?%elem_of_nil.
  - destruct (needsContext op') eqn:Hop.
    + destruct (groupRuns needsContext rest) as [|[kept|run'] items].
      * intros [[=]|?%elem_of_nil]%elem_of_cons; done.
      * intros [[=]|Hin]%elem_of_cons. by apply IH.
      * intros [[=]|Hin]%elem_of_cons. apply IH. by right.
    + intros [[= ->]|Hin]%elem_of_cons; [done|by apply IH].
Qed.


Lemma wrapped_not_classified n :
  getDialectNamespace n = lmhlo_gpu.LmhloGpuDialect ∨
  n ∈ wrappedLmhloOps →
  n ∉ explicitlyClassified.
Proof.
  intros Hwrapped Hin%namespace_explicitlyClassified.
  destruct Hwrapped as [Hns|Hns%namespace_wrappedLmhloOps];
    rewrite Hns in Hin; set_unfold in Hin; by destruct Hin as [|[|[|[|]]]].
Qed.

(** The default rule: explicit classification comes first, and what is
    left is legal unless the wrap target claims it. *)
Lemma target_isLegal_unclassified o :
  nameOf o ∉ explicitlyClassified →
  ConversionTarget.isLegal target o =
  negb (ConversionTarget.isLegal wrap_target o).
Proof.
  intros Hname. unfold ConversionTarget.isLegal at 1.
  by rewrite target_getOpInfo, target_unclassified.
Qed.

Lemma target_isLegal_FuncOp o :
  nameOf o = func.FuncOp →
  ConversionTarget.isLegal target o =
  TypeConverter.isSignatureLegal converter (getFunctionType (deref o)) &&
  TypeConverter.isLegalRegion converter (getBody (deref o)).
Proof.
  intros Hname. unfold ConversionTarget.isLegal.
  by rewrite target_getOpInfo, target_legalOperations, Hname.
Qed.

Lemma target_isLegal_StreamifyOp o :
  nameOf o = tfrt.gpu.StreamifyOp →
  ConversionTarget.isLegal target o =
  TypeConverter.isLegalRegion converter (getBody (deref o)).
Proof.
  intros Hname. unfold ConversionTarget.isLegal.
  by rewrite target_getOpInfo, target_legalOperations, Hname.
Qed.

Lemma target_isLegal_LoadOp o :
  nameOf o = memref.LoadOp →
  ConversionTarget.isLegal target o = isa_StreamifyOp (getParentOp o).
Proof.
  intros Hname. unfold ConversionTarget.isLegal.
  by rewrite target_getOpInfo, target_legalOperations, Hname.
Qed.

(** A successful run of the pass leaves only operations the oracle
    accepts. *)
Lemma runOnOperation_success fuel st st' :
  runOnOperation fuel st = Some st' →
  passFailed st' = false →
  Forall (fun o => ConversionTarget.isLegal target o = true)
         (allOps (getOperation st')).
Proof.
  unfold runOnOperation, applyPartialConversion, conversionRequest.
  cbn [requestTarget requestPatterns requestRoot].
  destruct (drive target patterns fuel (getOperation st))
    as [[graph|graph blocker]|] eqn:Hrun; simpl; [|by intros [= <-]|done].
  intros [= <-] _. by apply drive_Legal in Hrun.
Qed.

(** ** The claims *)

(** C1: when the pass does not signal failure, the oracle accepts every
    operation of the resulting module, and no [memref.reinterpret_cast],
    [memref.view], [memref.alloca], [memref.alloc] or [memref.dealloc]
    is left anywhere in it. *)
Theorem C1_success_is_legal fuel st st' :
  runOnOperation fuel st = Some st' →
  passFailed st' = false →
  ∀ o, o ∈ allOps (getOperation st') →
    ConversionTarget.isLegal target o = true ∧
    nameOf o ∉ [memref.ReinterpretCastOp; memref.ViewOp; memref.AllocaOp;
                memref.AllocOp; memref.DeallocOp].
Proof.
  intros Hrun Hok o Hin.
  pose proof (runOnOperation_success _ _ _ Hrun Hok) as Hall.
  rewrite Forall_forall in Hall. rename Hall into Hrun'.
  pose proof (Hrun' o Hin) as Hlegal. split; [done|].
  intros Hname. revert Hlegal.
  unfold ConversionTarget.isLegal.
  rewrite target_getOpInfo, target_legalOperations.
  rewrite !elem_of_cons, elem_of_nil in Hname.
  repeat (destruct Hname as [->|Hname]; [by vm_compute|]). done.
Qed.

(** C2: when the conversion stops on a graph in which an operation is
    still illegal and no pattern applies to it, the pass signals failure
    and keeps the module it was given; no converted graph is returned. *)
Theorem C2_stuck_fails_pass fuel st d o :
  drive target patterns fuel (getOperation st) = Some d →
  o ∈ allOps (graphOf d) →
  ConversionTarget.isLegal target o = false →
  legalize patterns o = None →
  ∃ st', runOnOperation fuel st = Some st' ∧
         passFailed st' = true ∧
         getOperation st' = getOperation st.
Proof.
  intros Hrun Hin Hillegal _.
  destruct (drive_illegal_Stuck _ _ _ _ _ _ Hrun Hin Hillegal)
    as [blocker Hd].
  exists (signalPassFailure st).
  unfold runOnOperation, applyPartialConversion, conversionRequest.
  cbn [requestTarget requestPatterns requestRoot].
  by rewrite Hrun, Hd.
Qed.

(** C3: an operation whose kind the conversion target does not classify
    by name is legal exactly when the wrap target does not claim it. *)
Theorem C3_default_rule o :
  nameOf o ∉ explicitlyClassified →
  ConversionTarget.isLegal target o =
  negb (ConversionTarget.isLegal wrap_target o).
Proof.
  intros Hname. unfold ConversionTarget.isLegal at 1.
  rewrite target_getOpInfo. by rewrite (target_unclassified _ Hname).
Qed.

(** C4, as amended: the streamify provider only appends its wrapping
    patterns to the shared pattern set, after those of the nine providers;
    the module reaches the driver as the pass received it, together with
    that pattern set, in the single conversion the pass runs. *)
Theorem C4_wrapping_inside_driver fuel st :
  requestRoot (conversionRequest st) = getOperation st ∧
  requestPatterns (conversionRequest st) =
    loweringPatterns ++
    map (bindRule converter) (streamifyRules providers wrap_target) ∧
  runOnOperation fuel st =
    match applyPartialConversion target
            (loweringPatterns ++
             map (bindRule converter) (streamifyRules providers wrap_target))
            fuel (getOperation st) with
    | Some (failure, _) => Some (signalPassFailure st)
    | Some (success, module) => Some (mkPassState module (passFailed st))
    | None => None
    end.
Proof.
  repeat split. unfold runOnOperation, conversionRequest.
  cbn [requestTarget requestPatterns requestRoot]. rewrite patterns_unfold.
  by destruct (applyPartialConversion _ _ _ _) as [[[] ?]|].
Qed.


(** C6: a [func.func] is legal exactly when its signature passes
    [isSignatureLegal] and its body region is legal, so never before the
    whole signature is converted; a [tfrt_gpu.streamify] is legal exactly
    when the converter accepts its body region. *)
Theorem C6_function_and_streamify o :
  (nameOf o = func.FuncOp →
     (ConversionTarget.isLegal target o = true ↔
        TypeConverter.isSignatureLegal converter
          (getFunctionType (deref o)) = true ∧
        TypeConverter.isLegalRegion converter (getBody (deref o)) = true)) ∧
  (nameOf o = tfrt.gpu.StreamifyOp →
     (ConversionTarget.isLegal target o = true ↔
        TypeConverter.isLegalRegion converter (getBody (deref o)) = true)).
Proof.
  split; intros Hname.
  - by rewrite target_isLegal_FuncOp, andb_true_iff.
  - by rewrite target_isLegal_StreamifyOp.
Qed.

(** C7: a [memref.load] is legal exactly when its parent operation is a
    [tfrt_gpu.streamify]; anywhere else it is illegal, and it is found in
    no module that the pass returns without signalling failure. *)
Theorem C7_load_under_streamify o p :
  nameOf o = memref.LoadOp →
  getParentOp o = Some p →
  (ConversionTarget.isLegal target o = true ↔
     getName p = tfrt.gpu.StreamifyOp) ∧
  (getName p ≠ tfrt.gpu.StreamifyOp →
     ConversionTarget.isIllegal target o = true ∧
     ∀ fuel st st',
       runOnOperation fuel st = Some st' →
       passFailed st' = false →
       o ∉ allOps (getOperation st')).
Proof.
  intros Hname Hparent.
  assert (Hiff : ConversionTarget.isLegal target o = true ↔
                 getName p = tfrt.gpu.StreamifyOp).
  { rewrite target_isLegal_LoadOp, Hparent by done. simpl.
    apply bool_decide_eq_true. }
  split; [exact Hiff|]. intros Hother.
  assert (Hillegal : ConversionTarget.isLegal target o = false).
  { apply not_true_is_false. by rewrite Hiff. }
  split; [by rewrite target_isIllegal, Hillegal|].
  intros fuel st st' Hrun Hok Hin.
  pose proof (runOnOperation_success _ _ _ Hrun Hok) as Hall.
  rewrite Forall_forall in Hall. apply Hall in Hin. congruence.
Qed.

(** C8: the pass declares the GPU, TFRT, TFRT-GPU and XLIR dialects as
    its dependent dialects, these four and no other. *)
Theorem C8_dependent_dialects :
  (∀ registry d,
     d ∈ getDependentDialects registry ↔
     d ∈ registry ∨
     d ∈ [mlir_gpu.GPUDialect; tfrt.compiler.TFRTDialect;
          tfrt.gpu.GpuDialect; xla_gpu.XlirDialect]) ∧
  elements (getDependentDialects ∅) ≡ₚ
    [mlir_gpu.GPUDialect; tfrt.compiler.TFRTDialect; tfrt.gpu.GpuDialect;
     xla_gpu.XlirDialect].
Proof.
  split.
  - intros registry d. unfold getDependentDialects, registryInsert. simpl.
    set_solver.
  - apply NoDup_Permutation.
    + apply NoDup_elements.
    + by apply (bool_decide_unpack (NoDup _)); vm_compute.
    + intros d. rewrite elem_of_elements.
      unfold getDependentDialects, registryInsert. simpl. set_solver.
Qed.

(** ** Further facts about the driver *)

Lemma stepSeq_all_NoIllegal {A} (f : A -> Step (list A)) (l : list A) :
  Forall (fun a => f a = NoIllegal) l → stepSeq f l = NoIllegal.
Proof.
  induction 1 as [|a l Ha _ IH]; simpl; [done|]. by rewrite Ha, IH.
Qed.

Lemma stepEach_all_NoIllegal {A} (f : A -> Step A) (l : list A) :
  Forall (fun a => f a = NoIllegal) l → stepEach f l = NoIllegal.
Proof.
  intros H. apply stepSeq_all_NoIllegal. eapply Forall_impl; [exact H|].
  intros a Ha; simpl. by rewrite Ha.
Qed.

(** On a walk the oracle accepts throughout, a step finds nothing to
    rewrite. *)
Lemma stepOp_all_legal t ps op :
  ∀ parent,
    Forall (fun o => ConversionTarget.isLegal t o = true) (walk parent op) →
    stepOp t ps parent op = NoIllegal.
Proof.
  induction op as [op IH] using Operation_nested_ind. intros parent.
  rewrite stepOp_unfold, walk_unfold.
  intros [Hlegal Hnested]%Forall_cons. rewrite Hlegal.
  apply Forall_flat_map in Hnested.
  rewrite stepEach_all_NoIllegal; [done|].
  eapply Forall_impl; [exact (List.Forall_and IH Hnested)|].
  intros r [IHr Hr]; simpl in *. apply Forall_flat_map in Hr.
  rewrite stepEach_all_NoIllegal; [done|].
  eapply Forall_impl; [exact (List.Forall_and IHr Hr)|].
  intros b [IHb Hb]; simpl in *. apply Forall_flat_map in Hb.
  rewrite stepSeq_all_NoIllegal; [done|].
  eapply Forall_impl; [exact (List.Forall_and IHb Hb)|].
  intros o [IHo Ho]; simpl in *. by apply IHo.
Qed.

Lemma drive_all_legal t ps fuel graph :
  Forall (fun o => ConversionTarget.isLegal t o = true) (allOps graph) →
  drive t ps fuel graph = Some (Legal graph).
Proof.
  intros Hlegal. apply (stepOp_all_legal t ps) in Hlegal.
  destruct fuel; simpl; unfold stepRoot; by rewrite Hlegal.
Qed.

(** Patterns of one benefit keep their registration order. *)
Lemma byPriority_equal_benefit (ps : RewritePatternSet) b :
  Forall (fun p => benefit p = b) ps → byPriority ps = ps.
Proof.
  unfold byPriority. induction 1 as [|p ps Hp Hps IH]; simpl; [done|].
  rewrite IH. destruct Hps as [|q rest Hq _]; simpl; [done|].
  rewrite Hp, Hq. by rewrite Nat.leb_refl.
Qed.

Lemma isLegalTypes_spec c ts :
  TypeConverter.isLegalTypes c ts = true ↔
  ∀ t, t ∈ ts → convertType c t = Some t.
Proof.
  unfold TypeConverter.isLegalTypes, TypeConverter.isLegalType.
  rewrite forallb_forall. split; intros H t Ht.
  - apply list_elem_of_In, H in Ht. by apply bool_decide_eq_true in Ht.
  - apply list_elem_of_In, H in Ht. by apply bool_decide_eq_true.
Qed.

Lemma isLegalRegion_spec c (r : Region) :
  TypeConverter.isLegalRegion c r = true ↔
  ∀ b t, b ∈ getBlocks r → t ∈ getArgumentTypes b →
         convertType c t = Some t.
Proof.
  unfold TypeConverter.isLegalRegion. rewrite forallb_forall.
  split.
  - intros H b t Hb. apply list_elem_of_In, H in Hb.
    by apply isLegalTypes_spec.
  - intros H b Hb. apply isLegalTypes_spec. intros t.
    apply H. by apply list_elem_of_In.
Qed.

(** ** Further properties of the pass *)

(** X1: a [tfrt.call], [tfrt.return], [tfrt.while], [func.call] or
    [func.return] is legal exactly when the converter leaves each of its
    operand and result types as it is. *)
Theorem X1_call_like_legal o :
  nameOf o ∈ [tfrt.compiler.CallOp; tfrt.compiler.ReturnOp;
              tfrt.compiler.WhileOp; func.CallOp; func.ReturnOp] →
  (ConversionTarget.isLegal target o = true ↔
   ∀ t, t ∈ getOperandTypes (deref o) ++ getResultTypes (deref o) →
        convertType converter t = Some t).
Proof.
  intros Hname.
  assert (Hcall : ConversionTarget.isLegal target o =
                  TypeConverter.isLegalOp converter (deref o)).
  { unfold ConversionTarget.isLegal.
    rewrite target_getOpInfo, target_legalOperations.
    rewrite !elem_of_cons, elem_of_nil in Hname.
    repeat (destruct Hname as [->|Hname]; [done|]). done. }
  rewrite Hcall. unfold TypeConverter.isLegalOp.
  rewrite andb_true_iff, !isLegalTypes_spec.
  setoid_rewrite elem_of_app. naive_solver.
Qed.

(** X3: an operation of the LMHLO-GPU dialect, or one of the twelve listed
    [lmhlo] operations, is illegal wherever it sits, streamify body
    included, and so is found in no module that the pass returns without
    signalling failure. *)
Theorem X3_wrapped_ops_illegal o :
  getDialectNamespace (nameOf o) = lmhlo_gpu.LmhloGpuDialect ∨
  nameOf o ∈ wrappedLmhloOps →
  ConversionTarget.isLegal target o = false ∧
  ConversionTarget.isIllegal target o = true ∧
  ∀ fuel st st',
    runOnOperation fuel st = Some st' →
    passFailed st' = false →
    o ∉ allOps (getOperation st').
Proof.
  intros Hwrapped.
  assert (Hillegal : ConversionTarget.isLegal target o = false).
  { rewrite target_isLegal_unclassified by by apply wrapped_not_classified.
    rewrite wrap_target_isLegal. apply negb_false_iff.
    destruct Hwrapped as [Hns|Hin].
    - by rewrite (bool_decide_eq_true_2 _ Hns), orb_true_r.
    - by rewrite (bool_decide_eq_true_2 _ Hin), orb_true_r. }
  split; [done|]. split; [by rewrite target_isIllegal, Hillegal|].
  intros fuel st st' Hrun Hok Hin.
  pose proof (runOnOperation_success _ _ _ Hrun Hok) as Hall.
  rewrite Forall_forall in Hall. apply Hall in Hin. congruence.
Qed.

(** X5: only the legality of [memref.load] depends on where the operation
    sits; an operation of any other kind is judged the same under every
    parent. *)
Theorem X5_legality_ignores_parent op parent parent' :
  getName op ≠ memref.LoadOp →
  ConversionTarget.isLegal target (mkOpRef parent op) =
  ConversionTarget.isLegal target (mkOpRef parent' op).
Proof.
  intros Hname. unfold ConversionTarget.isLegal.
  rewrite !target_getOpInfo, !target_legalOperations.
  unfold nameOf; simpl.
  case_bool_decide as Hload;
    [by apply list_elem_of_singleton in Hload|].
  do 4 (case_bool_decide; [done|]).
  by rewrite !wrap_target_isLegal.
Qed.

(** X6: an operation whose kind the target does not name, that is not one
    of the twelve [lmhlo] operations and belongs to neither the LMHLO-GPU
    nor a TFRT dialect is legal as it is: the pass asks for no rewrite of
    [gpu], [xlir], [builtin], other [memref] or other [lmhlo] operations. *)
Theorem X6_other_operations_legal o :
  Forall (fun n => isTfrtOp n = true) (streamifyOps providers) →
  nameOf o ∉ explicitlyClassified →
  nameOf o ∉ wrappedLmhloOps →
  getDialectNamespace (nameOf o) ∉
    [tfrt.compiler.TFRTDialect; tfrt.gpu.GpuDialect;
     lmhlo_gpu.LmhloGpuDialect] →
  ConversionTarget.isLegal target o = true.
Proof.
  intros Htfrt Hname Hlmhlo Hns. rewrite Forall_forall in Htfrt.
  rewrite target_isLegal_unclassified by done.
  rewrite wrap_target_isLegal. apply negb_true_iff.
  rewrite !orb_false_iff. repeat split; apply bool_decide_eq_false_2.
  - intros Hin%Htfrt. unfold isTfrtOp in Hin.
    apply bool_decide_eq_true in Hin. set_solver.
  - done.
  - set_solver.
Qed.

(** X7: the pass changes nothing in a module it has already converted:
    run again on the result of a run that did not signal failure, it
    returns that result as it is, without any rewrite. *)
Theorem X7_pass_idempotent fuel fuel' st st' :
  runOnOperation fuel st = Some st' →
  passFailed st' = false →
  runOnOperation fuel' st' = Some st'.
Proof.
  intros Hrun Hok.
  pose proof (runOnOperation_success _ _ _ Hrun Hok) as Hall.
  unfold runOnOperation, applyPartialConversion, conversionRequest.
  cbn [requestTarget requestPatterns requestRoot].
  rewrite (drive_all_legal _ _ _ _ Hall). simpl. by destruct st'.
Qed.

(** X8: the pass signals failure only for a cause: when it turns a state
    that had not failed into a failed one, the module is kept as it was
    and the conversion stopped on an operation of the graph that fails the
    oracle. *)
Theorem X8_failure_has_blocker fuel st st' :
  runOnOperation fuel st = Some st' →
  passFailed st = false →
  passFailed st' = true →
  getOperation st' = getOperation st ∧
  ∃ graph blocker,
    drive target patterns fuel (getOperation st) =
      Some (Stuck graph blocker) ∧
    blocker ∈ allOps graph ∧
    ConversionTarget.isLegal target blocker = false.
Proof.
  unfold runOnOperation, applyPartialConversion, conversionRequest.
  cbn [requestTarget requestPatterns requestRoot].
  destruct (drive target patterns fuel (getOperation st))
    as [[graph|graph blocker]|] eqn:Hrun; simpl; [| |done].
  - intros [= <-] Hbefore Hafter; simpl in Hafter. congruence.
  - intros [= <-] _ _. split; [done|]. exists graph, blocker.
    split; [done|]. by apply drive_Stuck in Hrun.
Qed.

(** X9: declaring the dependent dialects removes nothing from the registry
    and declaring them twice is the same as declaring them once. *)
Theorem X9_dependent_dialects_idempotent (registry : DialectRegistry) :
  registry ⊆ getDependentDialects registry ∧
  getDependentDialects (getDependentDialects registry) =
    getDependentDialects registry.
Proof.
  unfold getDependentDialects, registryInsert; simpl. split; set_solver.
Qed.

(** X10: the patterns are registered in the order collectives, Cholesky,
    convolution, custom call, GEMM, infeed and outfeed, replica and
    partition id, triangular solve, FFT and, last, region wrapping; when
    all of them declare the same benefit, they are tried on an operation
    in that order. *)
Theorem X10_registration_order b o :
  Forall (fun p => benefit p = b) patterns →
  legalize patterns o =
  tryPatterns
    (map (bindRule converter)
       (cclRules providers ++ choleskyRules providers ++
        convolutionRules providers ++ customCallRules providers ++
        gemmRules providers ++ infeedAndOutfeedRules providers ++
        replicaAndPartitionRules providers ++
        triangularSolveRules providers ++ fftRules providers ++
        streamifyRules providers wrap_target))
    o.
Proof.
  intros Hbenefit. unfold legalize.
  rewrite (byPriority_equal_benefit _ _ Hbenefit), patterns_unfold.
  unfold loweringPatterns, populateCclConversionPattern,
    populateCholeskyConversionPattern, populateConvolutionConversionPattern,
    populateCustomCallConversionPattern, populateGemmConversionPattern,
    populateInfeedAndOutfeedConversionPattern,
    populateReplicaAndPartitionConversionPattern,
    populateTriangularSolveConversionPattern, populateFftConversionPattern,
    populate.
  cbv zeta. rewrite !map_app. simpl. by rewrite <- !app_assoc.
Qed.

(** X11: in a module that the pass returns without signalling failure,
    the converter leaves every input and result type of every function,
    and every argument type of the blocks of its body, as it is. *)
Theorem X11_functions_converted fuel st st' o :
  runOnOperation fuel st = Some st' →
  passFailed st' = false →
  o ∈ allOps (getOperation st') →
  nameOf o = func.FuncOp →
  (∀ t, t ∈ getInputs (getFunctionType (deref o)) ++
            getResults (getFunctionType (deref o)) →
        convertType converter t = Some t) ∧
  (∀ b t, b ∈ getBlocks (getBody (deref o)) →
          t ∈ getArgumentTypes b →
          convertType converter t = Some t).
Proof.
  intros Hrun Hok Hin Hname.
  pose proof (runOnOperation_success _ _ _ Hrun Hok) as Hall.
  rewrite Forall_forall in Hall. apply Hall in Hin.
  rewrite target_isLegal_FuncOp in Hin by done.
  apply andb_true_iff in Hin as [Hsig Hbody].
  split.
  - by apply isLegalTypes_spec.
  - by apply isLegalRegion_spec.
Qed.
End Pass.

(** ** The claims on the sample data *)

Abbreviation sampleTarget := (target Sample.memrefToBuffer Sample.providers).
Abbreviation sampleWrapTarget :=
  (wrap_target Sample.memrefToBuffer Sample.providers).
Abbreviation samplePatterns :=
  (patterns Sample.memrefToBuffer Sample.providers).
Abbreviation sampleRun :=
  (runOnOperation Sample.memrefToBuffer Sample.providers).

(** The sample module is wrapped and lowered in two rewrites; one rewrite
    is not enough. *)
Example sample_run :
  sampleRun 2 (mkPassState Sample.fftModule false) =
    Some (mkPassState Sample.loweredFftModule false) ∧
  sampleRun 1 (mkPassState Sample.fftModule false) = None.
Proof. by vm_compute. Qed.

Lemma C1_success_is_legal_witness :
  ConversionTarget.isLegal sampleTarget (mkOpRef None Sample.loweredFftModule)
    = true ∧
  nameOf (mkOpRef None Sample.loweredFftModule) ∉
    [memref.ReinterpretCastOp; memref.ViewOp; memref.AllocaOp;
     memref.AllocOp; memref.DeallocOp].
Proof.
  apply (C1_success_is_legal Sample.memrefToBuffer Sample.providers 2
           (mkPassState Sample.fftModule false)
           (mkPassState Sample.loweredFftModule false)).
  - vm_compute. reflexivity.
  - reflexivity.
  - simpl. left.
Defined.

Lemma C2_stuck_fails_pass_witness :
  ∃ st', sampleRun 0 (mkPassState Sample.allocModule false) = Some st' ∧
         passFailed st' = true ∧
         getOperation st' = Sample.allocModule.
Proof.
  apply (C2_stuck_fails_pass Sample.memrefToBuffer Sample.providers 0
           (mkPassState Sample.allocModule false)
           (Stuck Sample.allocModule
                  (mkOpRef (Some Sample.allocFunction) Sample.alloc))
           (mkOpRef (Some Sample.allocFunction) Sample.alloc)).
  - vm_compute. reflexivity.
  - simpl. right. right. left.
  - vm_compute. reflexivity.
  - vm_compute. reflexivity.
Defined.

Lemma C3_default_rule_witness :
  ConversionTarget.isLegal sampleTarget (mkOpRef None Sample.fft) =
  negb (ConversionTarget.isLegal sampleWrapTarget (mkOpRef None Sample.fft)).
Proof.
  apply (C3_default_rule Sample.memrefToBuffer Sample.providers
           (mkOpRef None Sample.fft)).
  apply (bool_decide_unpack _). vm_compute. exact I.
Defined.

(** C4, as stated, fails on the sample module: the graph handed to the
    driver is the module as the pass received it, with [lmhlo.fft] still
    directly in the function; the region is wrapped by the driver's first
    rewrite. *)
Lemma C4_prepass_counterexample :
  ¬ wrappedBeforeDriver Sample.memrefToBuffer Sample.providers
      (mkPassState Sample.fftModule false) ∧
  requestRoot (conversionRequest Sample.memrefToBuffer Sample.providers
                 (mkPassState Sample.fftModule false)) = Sample.fftModule ∧
  ∃ wrapped,
    stepRoot sampleTarget samplePatterns Sample.fftModule =
      Rewritten wrapped ∧
    regionWrapped Sample.memrefToBuffer Sample.providers wrapped = true.
Proof.
  split; [by vm_compute|]. split; [reflexivity|].
  eexists. split; [by vm_compute|by vm_compute].
Qed.



(** The wrapper on a run of three claimed operations between two others:
    one wrapping operation holds the three, the two others keep their
    place. *)
Example region_wrapper_sample :
  wrapBlock Sample.memrefToBuffer Sample.providers None
    [Sample.launch; Sample.fft; Sample.fft; Sample.fft; Sample.loadOp] =
  [Sample.launch; streamifyAround [Sample.fft; Sample.fft; Sample.fft];
   Sample.loadOp].
Proof. by vm_compute. Qed.

Lemma C6_function_and_streamify_witness :
  ConversionTarget.isLegal sampleTarget
    (mkOpRef None (Sample.functionOf ["!tfrt_gpu.buffer"] [])) = true ↔
  TypeConverter.isSignatureLegal (converter Sample.memrefToBuffer)
    (getFunctionType (Sample.functionOf ["!tfrt_gpu.buffer"] [])) = true ∧
  TypeConverter.isLegalRegion (converter Sample.memrefToBuffer)
    (getBody (Sample.functionOf ["!tfrt_gpu.buffer"] [])) = true.
Proof.
  apply (proj1 (C6_function_and_streamify Sample.memrefToBuffer
                  Sample.providers
                  (mkOpRef None (Sample.functionOf ["!tfrt_gpu.buffer"] [])))).
  reflexivity.
Defined.

Lemma C7_load_under_streamify_witness :
  (ConversionTarget.isLegal sampleTarget
     (mkOpRef (Some (Sample.streamifyOf [Sample.loadOp])) Sample.loadOp)
     = true ↔
   getName (Sample.streamifyOf [Sample.loadOp]) = tfrt.gpu.StreamifyOp) ∧
  (getName (Sample.streamifyOf [Sample.loadOp]) ≠ tfrt.gpu.StreamifyOp →
   ConversionTarget.isIllegal sampleTarget
     (mkOpRef (Some (Sample.streamifyOf [Sample.loadOp])) Sample.loadOp)
     = true ∧
   ∀ fuel st st',
     sampleRun fuel st = Some st' →
     passFailed st' = false →
     mkOpRef (Some (Sample.streamifyOf [Sample.loadOp])) Sample.loadOp ∉
       allOps (getOperation st')).
Proof.
  apply (C7_load_under_streamify Sample.memrefToBuffer Sample.providers
           (mkOpRef (Some (Sample.streamifyOf [Sample.loadOp])) Sample.loadOp)
           (Sample.streamifyOf [Sample.loadOp])); reflexivity.
Defined.

(** ** Further properties on the sample data *)

(** X4: for a kind that the conversion target names, the wrap target has
    no say: with the same converter, the operation is judged the same
    whatever the providers add to the wrap target. *)
Theorem X4_named_kinds_ignore_wrap_set c (providers providers' : Providers) o :
  nameOf o ∈ explicitlyClassified →
  ConversionTarget.isLegal (target c providers) o =
  ConversionTarget.isLegal (target c providers') o.
Proof.
  intros Hname. unfold ConversionTarget.isLegal.
  rewrite !target_getOpInfo, !target_legalOperations.
  unfold explicitlyClassified in Hname.
  do 5 (case_bool_decide; [done|]).
  exfalso. set_unfold. tauto.
Qed.

Abbreviation sampleCall :=
  (mkOpRef None
     (Sample.leafOp tfrt.compiler.CallOp ["!tfrt.chain"] ["!tfrt.chain"])).

Abbreviation bareProviders :=
  (mkProviders [] [] [] [] [] [] [] [] [] (fun _ => []) []).

Lemma X1_call_like_legal_witness :
  ConversionTarget.isLegal sampleTarget sampleCall = true ↔
  ∀ t, t ∈ getOperandTypes (deref sampleCall) ++
           getResultTypes (deref sampleCall) →
       convertType (converter Sample.memrefToBuffer) t = Some t.
Proof.
  apply (X1_call_like_legal Sample.memrefToBuffer Sample.providers
           sampleCall).
  simpl. left.
Defined.

Lemma X3_wrapped_ops_illegal_witness :
  ConversionTarget.isLegal sampleTarget
    (mkOpRef (Some (Sample.streamifyOf [Sample.fft])) Sample.fft) = false ∧
  ConversionTarget.isIllegal sampleTarget
    (mkOpRef (Some (Sample.streamifyOf [Sample.fft])) Sample.fft) = true ∧
  ∀ fuel st st',
    sampleRun fuel st = Some st' →
    passFailed st' = false →
    mkOpRef (Some (Sample.streamifyOf [Sample.fft])) Sample.fft ∉
      allOps (getOperation st').
Proof.
  apply (X3_wrapped_ops_illegal Sample.memrefToBuffer Sample.providers
           (mkOpRef (Some (Sample.streamifyOf [Sample.fft])) Sample.fft)).
  right. apply (bool_decide_unpack _). vm_compute. exact I.
Defined.

Lemma X4_named_kinds_ignore_wrap_set_witness :
  ConversionTarget.isLegal sampleTarget sampleCall =
  ConversionTarget.isLegal (target Sample.memrefToBuffer bareProviders)
    sampleCall.
Proof.
  apply (X4_named_kinds_ignore_wrap_set Sample.memrefToBuffer
           Sample.providers bareProviders sampleCall).
  apply (bool_decide_unpack _). vm_compute. exact I.
Defined.

Lemma X5_legality_ignores_parent_witness :
  ConversionTarget.isLegal sampleTarget (mkOpRef None Sample.alloc) =
  ConversionTarget.isLegal sampleTarget
    (mkOpRef (Some (Sample.streamifyOf [Sample.alloc])) Sample.alloc).
Proof.
  apply (X5_legality_ignores_parent Sample.memrefToBuffer Sample.providers
           Sample.alloc None (Some (Sample.streamifyOf [Sample.alloc]))).
  apply (bool_decide_unpack _). vm_compute. exact I.
Defined.

Lemma X6_other_operations_legal_witness :
  ConversionTarget.isLegal sampleTarget
    (mkOpRef None (Sample.leafOp "lmhlo.fusion" [] [])) = true.
Proof.
  apply (X6_other_operations_legal Sample.memrefToBuffer Sample.providers
           (mkOpRef None (Sample.leafOp "lmhlo.fusion" [] [])));
    apply (bool_decide_unpack _); vm_compute; exact I.
Defined.

Lemma X7_pass_idempotent_witness :
  sampleRun 0 (mkPassState Sample.loweredFftModule false) =
  Some (mkPassState Sample.loweredFftModule false).
Proof.
  apply (X7_pass_idempotent Sample.memrefToBuffer Sample.providers 2 0
           (mkPassState Sample.fftModule false)
           (mkPassState Sample.loweredFftModule false)).
  - vm_compute. reflexivity.
  - reflexivity.
Defined.

Lemma X8_failure_has_blocker_witness :
  getOperation (mkPassState Sample.allocModule true) =
    getOperation (mkPassState Sample.allocModule false) ∧
  ∃ graph blocker,
    drive sampleTarget samplePatterns 0
      (getOperation (mkPassState Sample.allocModule false)) =
      Some (Stuck graph blocker) ∧
    blocker ∈ allOps graph ∧
    ConversionTarget.isLegal sampleTarget blocker = false.
Proof.
  apply (X8_failure_has_blocker Sample.memrefToBuffer Sample.providers 0
           (mkPassState Sample.allocModule false)
           (mkPassState Sample.allocModule true)).
  - vm_compute. reflexivity.
  - reflexivity.
  - reflexivity.
Defined.

Lemma X10_registration_order_witness :
  legalize samplePatterns
    (mkOpRef (Some (Sample.streamifyOf [Sample.fft])) Sample.fft) =
  tryPatterns
    (map (bindRule (converter Sample.memrefToBuffer))
       (cclRules Sample.providers ++ choleskyRules Sample.providers ++
        convolutionRules Sample.providers ++
        customCallRules Sample.providers ++
        gemmRules Sample.providers ++
        infeedAndOutfeedRules Sample.providers ++
        replicaAndPartitionRules Sample.providers ++
        triangularSolveRules Sample.providers ++
        fftRules Sample.providers ++
        streamifyRules Sample.providers sampleWrapTarget))
    (mkOpRef (Some (Sample.streamifyOf [Sample.fft])) Sample.fft).
Proof.
  apply (X10_registration_order Sample.memrefToBuffer Sample.providers 1
           (mkOpRef (Some (Sample.streamifyOf [Sample.fft])) Sample.fft)).
  repeat constructor.
Defined.

Lemma X11_functions_converted_witness :
  (∀ t, t ∈ getInputs (getFunctionType
                         (Sample.functionOf ["!tfrt_gpu.buffer"] [])) ++
            getResults (getFunctionType
                          (Sample.functionOf ["!tfrt_gpu.buffer"] [])) →
        convertType (converter Sample.memrefToBuffer) t = Some t) ∧
  (∀ b t,
     b ∈ getBlocks (getBody (Sample.functionOf ["!tfrt_gpu.buffer"] [])) →
     t ∈ getArgumentTypes b →
     convertType (converter Sample.memrefToBuffer) t = Some t).
Proof.
  apply (X11_functions_converted Sample.memrefToBuffer Sample.providers 0
           (mkPassState
              (Sample.moduleOf [Sample.functionOf ["!tfrt_gpu.buffer"] []])
              false)
           (mkPassState
              (Sample.moduleOf [Sample.functionOf ["!tfrt_gpu.buffer"] []])
              false)
           (mkOpRef
              (Some (Sample.moduleOf
                       [Sample.functionOf ["!tfrt_gpu.buffer"] []]))
              (Sample.functionOf ["!tfrt_gpu.buffer"] []))).
  - vm_compute. reflexivity.
  - reflexivity.
  - simpl. right. left.
  - reflexivity.
Defined.
